(** * The Axiom chat relay (axiom_server.py)

    A shallow embedding of the FastAPI application of [axiom_server.py]:
    the request model [ChatRequest], the front door [get_root] and the
    relay handler [chat_with_axiom], together with the properties of the
    relay contract.

    Conventions.
    - JSON documents are values of [json]; a JSON object (a Python [dict]
      with string keys) is a [gmap string json].
    - Python strings are [string]s holding the UTF-8 bytes of the text.
    - The handler runs in a small state-and-exception monad [M].  The state
      holds the one mutable list object that the names [request.history],
      [conversation_history], [payload["messages"]] and the returned
      ["history"] entry all alias, the lines written by [print], and the
      calls made through [requests.post].
    - The [requests] library is the environment: a [backend] says what
      [requests.post] returns or raises; a [Response] carries the status
      line it came with and what decoding its body gives, and
      [raise_for_status] is the library's test of the status code. *)

From stdpp Require Import gmap strings list fin_maps pretty.

Local Set Warnings "-register-all".
Local Open Scope Z_scope.

(** ** JSON values *)

(** Numbers are integers here; the relay never looks inside a number. *)
Inductive json : Type :=
  | JNull
  | JBool (b : bool)
  | JNum (n : Z)
  | JStr (s : string)
  | JArr (l : list json)
  | JObj (m : gmap string json).

(** The name Python gives to the type of a decoded JSON value. *)
Definition type_name (j : json) : string :=
  match j with
  | JNull => "NoneType"
  | JBool _ => "bool"
  | JNum _ => "int"
  | JStr _ => "str"
  | JArr _ => "list"
  | JObj _ => "dict"
  end.

Definition is_dict (j : json) : bool :=
  match j with JObj _ => true | _ => false end.

(** ** Configuration *)

Definition OLLAMA_API_URL : string := "http://localhost:11434/api/chat".
Definition TEXT_MODEL_NAME : string := "llama3:8b".
Definition VISION_MODEL_NAME : string := "llava".

(** ** Exceptions *)

(** The exception classes that matter to the handler: the hierarchy of
    [requests.exceptions] rooted at [RequestException], and the builtin
    classes outside of it. *)
Inductive exception_class : Set :=
  | RequestException
  | ConnectionError
  | Timeout
  | HTTPError
  | AttributeError
  | ValueError.

Record exception : Set := Exception {
  exc_class : exception_class;
  exc_str : string  (* str(e) *)
}.

Definition issubclass (c base : exception_class) : bool :=
  match base, c with
  | RequestException, (RequestException | ConnectionError | Timeout | HTTPError) => true
  | ConnectionError, ConnectionError => true
  | Timeout, Timeout => true
  | HTTPError, HTTPError => true
  | AttributeError, AttributeError => true
  | ValueError, ValueError => true
  | _, _ => false
  end.

Definition isinstance (e : exception) (base : exception_class) : bool :=
  issubclass (exc_class e) base.

Inductive result (A : Type) : Type :=
  | Ok (a : A)
  | Raise (e : exception).
Arguments Ok {A} a.
Arguments Raise {A} e.

(** ** The environment: the requests library and the backend behind it *)

(** A [requests.Response], as far as the handler looks at it. *)
Record Response : Type := {
  status_code : Z;
  reason : string;            (* the reason phrase of the status line *)
  response_url : string;      (* response.url *)
  json_method : result json   (* response.json() *)
}.

(** [Response.raise_for_status] of the requests library: an [HTTPError]
    for a status from 400 to 599, with the text the library builds from
    the status line, and nothing for any other status (1xx, 2xx, 3xx). *)
Definition http_error_msg (response : Response) : string :=
  if (400 <=? status_code response) && (status_code response <? 500) then
    pretty (status_code response) ++ " Client Error: " ++ reason response
    ++ " for url: " ++ response_url response
  else if (500 <=? status_code response) && (status_code response <? 600) then
    pretty (status_code response) ++ " Server Error: " ++ reason response
    ++ " for url: " ++ response_url response
  else "".

Definition raise_for_status (response : Response) : result unit :=
  if (400 <=? status_code response) && (status_code response <? 600)
  then Raise (Exception HTTPError (http_error_msg response))
  else Ok ().

(** One call [requests.post(url, json=..., timeout=...)], with the JSON
    document that went over the wire. *)
Record post_call : Type := PostCall {
  call_url : string;
  call_json : json;
  call_timeout : Z
}.

Definition backend : Type := post_call → result Response.

(** ** Program state and the handler monad *)

Record state : Type := State {
  conversation_history : list json;  (* the list object behind request.history *)
  stdout : list string;              (* lines written by print, oldest first *)
  sent : list post_call              (* calls to requests.post, oldest first *)
}.

Definition M (A : Type) : Type := state → result A * state.

Definition ret {A} (a : A) : M A := λ σ, (Ok a, σ).

Definition bind {A B} (c : M A) (k : A → M B) : M B :=
  λ σ, match c σ with
       | (Ok a, σ') => k a σ'
       | (Raise e, σ') => (Raise e, σ')
       end.

Definition raise {A} (e : exception) : M A := λ σ, (Raise e, σ).

Definition lift {A} (r : result A) : M A := λ σ, (r, σ).

(** [try: body except cls as e: handler e].  The state reached when the
    exception was raised is the one the handler continues from. *)
Definition try_except {A} (body : M A) (cls : exception_class)
    (handler : exception → M A) : M A :=
  λ σ, match body σ with
       | (Ok a, σ') => (Ok a, σ')
       | (Raise e, σ') =>
           if isinstance e cls then handler e σ' else (Raise e, σ')
       end.

(** [M] is a monad in stdpp's sense, which gives the notations
    [x ← c; k] and [c;; k] for sequencing. *)
#[export] Instance M_ret : MRet M := @ret.
#[export] Instance M_bind : MBind M := λ A B k c, bind c k.

(** [print(line)] *)
Definition print (line : string) : M unit :=
  λ σ, (Ok (), State (conversation_history σ) (stdout σ ++ [line]) (sent σ)).

(** [conversation_history.append(x)]: in-place, on the shared list object. *)
Definition append (x : json) : M unit :=
  λ σ, (Ok (), State (conversation_history σ ++ [x]) (stdout σ) (sent σ)).

(** ** Python values that may hold a reference to the shared list *)

Inductive pyval : Type :=
  | Imm (j : json)   (* a value with no alias *)
  | HistoryRef.      (* a reference to the list object conversation_history *)

(** Serialisation, at the moment it happens: a reference is read through. *)
Definition deref (σ : state) (v : pyval) : json :=
  match v with
  | Imm j => j
  | HistoryRef => JArr (conversation_history σ)
  end.

Definition dumps (σ : state) (d : gmap string pyval) : json :=
  JObj (deref σ <$> d).

(** [requests.post(url, json=payload, timeout=timeout)]: the payload is
    serialised now, the call is recorded, the backend answers. *)
Definition requests_post (env : backend) (url : string)
    (payload : gmap string pyval) (timeout : Z) : M Response :=
  λ σ, let call := PostCall url (dumps σ payload) timeout in
       (env call, State (conversation_history σ) (stdout σ) (sent σ ++ [call])).

(** [d.get(key, dflt)]; only a dict has the method. *)
Definition py_get (d : json) (key : string) (dflt : json) : M json :=
  match d with
  | JObj m => ret (default dflt (m !! key))
  | _ => raise (Exception AttributeError
                  ("'" ++ type_name d ++ "' object has no attribute 'get'"))
  end.

(** ** The request model *)

Record ChatRequest : Type := {
  text : string;
  image : option string;   (* Optional[str] = None *)
  history : list json      (* List[dict] *)
}.

(** Truth value of an [Optional[str]]: [None] and the empty string are false. *)
Definition truthy (o : option string) : bool :=
  match o with
  | Some s => negb (String.eqb s "")
  | None => false
  end.

Definition optional_str (o : option string) : json :=
  match o with
  | Some s => JStr s
  | None => JNull
  end.

(** ** The relay handler: POST /api/chat *)

Definition apology : string :=
  "Désolé, une erreur est survenue en contactant le moteur Axiom. Détails: ".

Definition chat_with_axiom (env : backend) (request : ChatRequest)
    : M (gmap string pyval) :=
  (* conversation_history = request.history : the same list object *)
  let current_model := TEXT_MODEL_NAME in
  let user_message : gmap string json :=
    {[ "role" := JStr "user"; "content" := JStr (text request) ]} in
  '(current_model, user_message) ←
    (if truthy (image request) then
       print "🖼️ Image détectée, utilisation du modèle de vision LLaVA." ;;
       ret (VISION_MODEL_NAME,
            <["images" := JArr [optional_str (image request)]]> user_message)
     else ret (current_model, user_message)) ;
  append (JObj user_message) ;;
  let payload : gmap string pyval :=
    {[ "model" := Imm (JStr current_model);
       "messages" := HistoryRef;
       "stream" := Imm (JBool false) ]} in
  print ("🤖 Envoi de la requête à Ollama avec le modèle "
         ++ current_model ++ "...") ;;
  try_except
    (response ← requests_post env OLLAMA_API_URL payload 180 ;
     lift (raise_for_status response) ;;
     response_json ← lift (json_method response) ;
     assistant_message ← py_get response_json "message" (JObj ∅) ;
     append assistant_message ;;
     content ← py_get assistant_message "content" (JStr "") ;
     ret {[ "response" := Imm content; "history" := HistoryRef ]})
    RequestException
    (λ e,
     print ("❌ Erreur de communication avec Ollama: " ++ exc_str e) ;;
     ret {[ "response" := Imm (JStr (apology ++ exc_str e));
            "history" := HistoryRef ]}).

(** ** The application around the handler *)

(** What FastAPI sends back for POST /api/chat. *)
Inductive api_response : Type :=
  | OK (body : json)                      (* the handler's return value, as JSON *)
  | UnprocessableEntity                   (* the request body did not validate *)
  | InternalServerError (e : exception).  (* the handler raised *)

Definition api_status (r : api_response) : Z :=
  match r with
  | OK _ => 200
  | UnprocessableEntity => 422
  | InternalServerError _ => 500
  end.

(** Validation of the request body against the fields of [ChatRequest]:
    [text: str], [image: Optional[str] = None], [history: List[dict]].
    FastAPI does this on the decoded JSON body before it calls the handler:
    [text] must be there and be a string, [image] may be missing or null
    or a string, [history] must be there and be an array of objects.  Keys
    that are not fields are ignored. *)
Definition validate_str (j : json) : option string :=
  match j with
  | JStr s => Some s
  | _ => None
  end.

Definition validate_optional_str (field : option json) : option (option string) :=
  match field with
  | None | Some JNull => Some None
  | Some (JStr s) => Some (Some s)
  | Some _ => None
  end.

Definition validate_list_dict (j : json) : option (list json) :=
  match j with
  | JArr l => if forallb is_dict l then Some l else None
  | _ => None
  end.

Definition ChatRequest_validate (body : json) : option ChatRequest :=
  match body with
  | JObj m =>
      t ← m !! "text" ≫= validate_str;
      i ← validate_optional_str (m !! "image");
      h ← m !! "history" ≫= validate_list_dict;
      Some {| text := t; image := i; history := h |}
  | _ => None
  end.

(** The state a request starts in: the list object holds the history that
    came with the request; nothing printed, nothing sent. *)
Definition initial_state (request : ChatRequest) : state :=
  State (history request) [] [].

(** Running the handler on a validated request; the returned dict is
    serialised after the handler has finished.  Every value of [json] can
    be serialised; a value that cannot (a float that is not finite) is
    outside [json], and so is the server error it would end in. *)
Definition respond (env : backend) (request : ChatRequest) : api_response * state :=
  match chat_with_axiom env request (initial_state request) with
  | (Ok d, σ) => (OK (dumps σ d), σ)
  | (Raise e, σ) => (InternalServerError e, σ)
  end.

Definition post_api_chat (env : backend) (body : json) : api_response * state :=
  match ChatRequest_validate body with
  | Some request => respond env request
  | None => (UnprocessableEntity, State [] [] [])
  end.

(** The two fields of a response body. *)
Definition returned_history (r : api_response) : option (list json) :=
  match r with
  | OK (JObj m) =>
      match m !! "history" with
      | Some (JArr h) => Some h
      | _ => None
      end
  | _ => None
  end.

Definition returned_response (r : api_response) : option json :=
  match r with
  | OK (JObj m) => m !! "response"
  | _ => None
  end.

(** What the three library calls of the [try] block amount to for one
    call: the decoded body, or the exception one of them raised. *)
Definition backend_outcome (env : backend) (call : post_call) : result json :=
  match env call with
  | Ok response =>
      match raise_for_status response with
      | Ok _ => json_method response
      | Raise e => Raise e
      end
  | Raise e => Raise e
  end.

(** ** The front door: GET / *)

Inductive node : Type :=
  | RegularFile (content : string)
  | Directory.

(** [os.path.exists] *)
Definition os_path_exists (fs : gmap string node) (path : string) : bool :=
  bool_decide (is_Some (fs !! path)).

Inductive web_response : Type :=
  | HTMLResponse (content : string)
  | FileResponse (path : string).

(** The [status_code] attribute of the response object the handler
    returns: both classes are built with their default, 200.  (What is
    sent for a [FileResponse] whose path is not a regular file is decided
    later, by the framework.) *)
Definition web_status (r : web_response) : Z :=
  match r with
  | HTMLResponse _ => 200
  | FileResponse _ => 200
  end.

Definition get_root (fs : gmap string node) : web_response :=
  if os_path_exists fs "index.html" then FileResponse "index.html"
  else HTMLResponse "<h1>Fichier index.html non trouvé.</h1>".

(** The bytes a response carries: the inline content, or the file read
    from disk when the path names a regular file. *)
Definition web_body (fs : gmap string node) (r : web_response) : option string :=
  match r with
  | HTMLResponse content => Some content
  | FileResponse path =>
      match fs !! path with
      | Some (RegularFile content) => Some content
      | _ => None
      end
  end.

(** Substring test, for notices inside a page. *)
Fixpoint contains (needle hay : string) : bool :=
  String.prefix needle hay ||
  match hay with
  | EmptyString => false
  | String _ rest => contains needle rest
  end.

(** ** What the handler is expected to do, in closed form *)

(** The turn built for the caller's text, with the image attached when
    [request.image] is true. *)
Definition user_turn (request : ChatRequest) : json :=
  let user_message : gmap string json :=
    {[ "role" := JStr "user"; "content" := JStr (text request) ]} in
  JObj (if truthy (image request)
        then <["images" := JArr [optional_str (image request)]]> user_message
        else user_message).

Definition selected_model (request : ChatRequest) : string :=
  if truthy (image request) then VISION_MODEL_NAME else TEXT_MODEL_NAME.

Definition expected_call (request : ChatRequest) : post_call :=
  PostCall OLLAMA_API_URL
    (JObj {[ "model" := JStr (selected_model request);
             "messages" := JArr (history request ++ [user_turn request]);
             "stream" := JBool false ]})
    180.

(** The response body [{"response": ..., "history": [...]}]. *)
Definition reply (response : json) (h : list json) : json :=
  JObj {[ "response" := response; "history" := JArr h ]}.

(** The exception of [x.get] on a value that is not a dict. *)
Definition no_get (j : json) : exception :=
  Exception AttributeError ("'" ++ type_name j ++ "' object has no attribute 'get'").

(** What the backend answered to the call the handler made for a request. *)
Definition backend_answer (env : backend) (request : ChatRequest)
    : option (result json) :=
  backend_outcome env <$> last (sent (respond env request).2).

(** The message object of a decoded backend body that has the shape the
    handler relies on: an object whose [message] entry, when there is one,
    is an object too.  A missing entry stands for the empty object. *)
Definition assistant_message_of (response_json : json) : option (gmap string json) :=
  match response_json with
  | JObj m =>
      match default (JObj ∅) (m !! "message") with
      | JObj mm => Some mm
      | _ => None
      end
  | _ => None
  end.

(** One field of a JSON object, and of the JSON document of a call. *)
Definition field (key : string) (j : json) : option json :=
  match j with
  | JObj m => m !! key
  | _ => None
  end.

Definition payload_field (key : string) (call : post_call) : option json :=
  field key (call_json call).

(** Request bodies that do not fit the fields of [ChatRequest]. *)
Inductive malformed : json → Prop :=
  | not_an_object body :
      is_dict body = false → malformed body
  | missing_text m :
      m !! "text" = None → malformed (JObj m)
  | missing_history m :
      m !! "history" = None → malformed (JObj m)
  | text_not_str m j :
      m !! "text" = Some j → (∀ s, j ≠ JStr s) → malformed (JObj m)
  | image_not_str m j :
      m !! "image" = Some j → j ≠ JNull → (∀ s, j ≠ JStr s) → malformed (JObj m)
  | history_not_list m j :
      m !! "history" = Some j → (∀ l, j ≠ JArr l) → malformed (JObj m)
  | history_item_not_dict m l x :
      m !! "history" = Some (JArr l) → x ∈ l → is_dict x = false →
      malformed (JObj m).

(** [new] is [old] with at least one entry appended: [old] is its prefix,
    unchanged and in order. *)
Definition strict_extension (old new : list json) : Prop :=
  old `prefix_of` new
  ∧ (∃ appended, new = old ++ appended ∧ appended ≠ [])
  ∧ (length old < length new)%nat.

(** ** Scenarios *)

(** A healthy backend that answers every call with a greeting. *)
Definition healthy_backend : backend :=
  λ _, Ok {| status_code := 200;
             reason := "OK";
             response_url := OLLAMA_API_URL;
             json_method :=
               Ok (JObj {[ "message" :=
                             JObj {[ "role" := JStr "assistant";
                                     "content" := JStr "hello" ]} ]}) |}.

(** A backend that answers with an object that has no [message]. *)
Definition silent_backend : backend :=
  λ _, Ok {| status_code := 200;
             reason := "OK";
             response_url := OLLAMA_API_URL;
             json_method := Ok (JObj {[ "done" := JBool true ]}) |}.

(** A backend whose [message] is not an object. *)
Definition null_message_backend : backend :=
  λ _, Ok {| status_code := 200;
             reason := "OK";
             response_url := OLLAMA_API_URL;
             json_method := Ok (JObj {[ "message" := JNull ]}) |}.

(** An unreachable backend, a slow one, and one that answers with an
    error status. *)
Definition unreachable_backend : backend :=
  λ _, Raise (Exception ConnectionError "Connection refused").

Definition slow_backend : backend :=
  λ _, Raise (Exception Timeout "Read timed out. (read timeout=180)").



(** A backend that answers 404 with a body that would be a valid reply,
    and one that answers 300 with such a body. *)
Definition not_found : Response :=
  {| status_code := 404;
     reason := "Not Found";
     response_url := OLLAMA_API_URL;
     json_method :=
       Ok (JObj {[ "message" := JObj {[ "content" := JStr "ignored" ]} ]}) |}.

Definition not_found_backend : backend := λ _, Ok not_found.



(** A backend whose body does not decode, with an exception that is not
    a [RequestException]. *)
Definition garbled : Response :=
  {| status_code := 200;
     reason := "OK";
     response_url := OLLAMA_API_URL;
     json_method := Raise (Exception ValueError "Expecting value") |}.

Definition garbled_backend : backend := λ _, Ok garbled.

Definition scenario_A_body : json :=
  JObj {[ "text" := JStr "hi"; "history" := JArr [] ]}.

Definition scenario_A : ChatRequest :=
  {| text := "hi"; image := None; history := [] |}.

Definition scenario_C : ChatRequest :=
  {| text := "describe"; image := Some "AAAA"; history := [] |}.

(** A request whose image is present but empty. *)
Definition empty_image_request : ChatRequest :=
  {| text := "describe"; image := Some ""; history := [] |}.

(** A request that continues a conversation. *)
Definition follow_up : ChatRequest :=
  {| text := "and now?";
     image := None;
     history := [ JObj {[ "role" := JStr "user"; "content" := JStr "hi" ]};
                  JObj {[ "role" := JStr "assistant"; "content" := JStr "hello" ]} ] |}.

(** * Properties *)

(** ** Running the monad, one statement at a time *)

Section run_equations.
Context {A B : Type}.

Lemma bind_run (c : M A) (k : A → M B) σ :
  (c ≫= k) σ = match c σ with
               | (Ok a, σ') => k a σ'
               | (Raise e, σ') => (Raise e, σ')
               end.
Proof. reflexivity. Qed.

Lemma ret_run (a : A) σ : ret a σ = (Ok a, σ).
Proof. reflexivity. Qed.

Lemma try_except_run (body : M A) cls handler σ :
  try_except body cls handler σ =
  match body σ with
  | (Ok a, σ') => (Ok a, σ')
  | (Raise e, σ') => if isinstance e cls then handler e σ' else (Raise e, σ')
  end.
Proof. reflexivity. Qed.
End run_equations.

Lemma print_run line σ :
  print line σ = (Ok (), State (conversation_history σ) (stdout σ ++ [line]) (sent σ)).
Proof. reflexivity. Qed.

Lemma append_run x σ :
  append x σ = (Ok (), State (conversation_history σ ++ [x]) (stdout σ) (sent σ)).
Proof. reflexivity. Qed.

Ltac run_step :=
  first [rewrite bind_run | rewrite print_run | rewrite append_run | rewrite ret_run];
  cbv beta iota.

(** ** Serialisation of the two dicts the handler builds *)

Lemma dumps_payload σ (model : string) :
  dumps σ {[ "model" := Imm (JStr model);
             "messages" := HistoryRef;
             "stream" := Imm (JBool false) ]}
  = JObj {[ "model" := JStr model;
            "messages" := JArr (conversation_history σ);
            "stream" := JBool false ]}.
Proof. unfold dumps. by rewrite !fmap_insert, map_fmap_singleton. Qed.

Lemma dumps_reply σ (content : json) :
  dumps σ {[ "response" := Imm content; "history" := HistoryRef ]}
  = reply content (conversation_history σ).
Proof. unfold dumps, reply. by rewrite !fmap_insert, map_fmap_singleton. Qed.

(** ** The [try] block *)

Lemma try_body_run env model σ :
  (response ← requests_post env OLLAMA_API_URL
                {[ "model" := Imm (JStr model);
                   "messages" := HistoryRef;
                   "stream" := Imm (JBool false) ]} 180 ;
   lift (raise_for_status response) ;;
   response_json ← lift (json_method response) ;
   assistant_message ← py_get response_json "message" (JObj ∅) ;
   append assistant_message ;;
   content ← py_get assistant_message "content" (JStr "") ;
   ret ({[ "response" := Imm content; "history" := HistoryRef ]}
          : gmap string pyval)) σ
  = let call :=
      PostCall OLLAMA_API_URL
        (JObj {[ "model" := JStr model;
                 "messages" := JArr (conversation_history σ);
                 "stream" := JBool false ]}) 180 in
    let σ1 := State (conversation_history σ) (stdout σ) (sent σ ++ [call]) in
    match backend_outcome env call with
    | Raise e => (Raise e, σ1)
    | Ok (JObj m) =>
        let msg := default (JObj ∅) (m !! "message") in
        let σ2 := State (conversation_history σ ++ [msg]) (stdout σ)
                        (sent σ ++ [call]) in
        match msg with
        | JObj mm =>
            (Ok {[ "response" := Imm (default (JStr "") (mm !! "content"));
                   "history" := HistoryRef ]}, σ2)
        | other => (Raise (no_get other), σ2)
        end
    | Ok other => (Raise (no_get other), σ1)
    end.
Proof.
  rewrite bind_run. unfold requests_post at 1. rewrite dumps_payload.
  unfold backend_outcome. cbv zeta.
  destruct (env _) as [response|e]; [|done].
  rewrite bind_run. unfold lift at 1.
  destruct (raise_for_status response) as [[]|e]; [|done].
  rewrite bind_run. unfold lift at 1.
  destruct (json_method response) as [response_json|e]; [|done].
  rewrite bind_run.
  destruct response_json as [| | | | |m]; try done.
  unfold py_get at 1, ret at 1.
  rewrite bind_run. unfold append at 1. rewrite bind_run.
  destruct (default (JObj ∅) (m !! "message")); done.
Qed.

(** ** The whole handler, by cases on what the backend did *)

Lemma respond_run env request :
  respond env request =
  let h1 := history request ++ [user_turn request] in
  let call := expected_call request in
  let lines :=
    (if truthy (image request)
     then ["🖼️ Image détectée, utilisation du modèle de vision LLaVA."%string]
     else []) ++
    [("🤖 Envoi de la requête à Ollama avec le modèle "
      ++ selected_model request ++ "...")%string] in
  match backend_outcome env call with
  | Raise e =>
      if isinstance e RequestException
      then (OK (reply (JStr (apology ++ exc_str e)) h1),
            State h1
              (lines ++ [("❌ Erreur de communication avec Ollama: "
                          ++ exc_str e)%string])
              [call])
      else (InternalServerError e, State h1 lines [call])
  | Ok (JObj m) =>
      match default (JObj ∅) (m !! "message") with
      | JObj mm =>
          (OK (reply (default (JStr "") (mm !! "content")) (h1 ++ [JObj mm])),
           State (h1 ++ [JObj mm]) lines [call])
      | other =>
          (InternalServerError (no_get other), State (h1 ++ [other]) lines [call])
      end
  | Ok other => (InternalServerError (no_get other), State h1 lines [call])
  end.
Proof.
  unfold respond, chat_with_axiom, expected_call, user_turn, selected_model,
    initial_state.
  destruct (truthy (image request));
    repeat run_step;
    rewrite try_except_run, try_body_run; cbv zeta;
    simpl conversation_history; simpl sent; simpl stdout;
    (destruct (backend_outcome env _) as [[| | | | |m]|e]; try reflexivity;
     [ destruct (default (JObj ∅) (m !! "message")); try reflexivity;
       by rewrite dumps_reply
     | destruct (isinstance e RequestException); [|reflexivity];
       repeat run_step; by rewrite dumps_reply ]).
Qed.

Lemma respond_sent env request :
  sent (respond env request).2 = [expected_call request].
Proof.
  rewrite respond_run. cbv zeta.
  destruct (backend_outcome env _) as [[| | | | |m]|e]; try reflexivity.
  - by destruct (default (JObj ∅) (m !! "message")).
  - by destruct (isinstance e RequestException).
Qed.

Lemma backend_answer_eq env request :
  backend_answer env request = Some (backend_outcome env (expected_call request)).
Proof. unfold backend_answer. by rewrite respond_sent. Qed.

Lemma truthy_true o : truthy o = true ↔ ∃ img, o = Some img ∧ img ≠ "".
Proof.
  destruct o as [s|]; simpl; split.
  - intros H. exists s. split; [done|]. by intros ->.
  - intros (img & [= ->] & Hne). by apply negb_true_iff, String.eqb_neq.
  - done.
  - by intros (img & ? & _).
Qed.

Lemma truthy_false o : truthy o = false ↔ o = None ∨ o = Some "".
Proof.
  destruct o as [s|]; simpl; split.
  - intros H%negb_false_iff%String.eqb_eq. right. by subst.
  - intros [?|[= ->]]; done.
  - by left.
  - done.
Qed.

(** ** The closed forms, spelled out *)

Lemma user_turn_image request img :
  image request = Some img → img ≠ "" →
  user_turn request
  = JObj {[ "role" := JStr "user";
            "content" := JStr (text request);
            "images" := JArr [JStr img] ]}.
Proof.
  intros Himg Hne. unfold user_turn.
  assert (truthy (image request) = true) as -> by (apply truthy_true; eauto).
  rewrite Himg. reflexivity.
Qed.

Lemma user_turn_plain request :
  image request = None ∨ image request = Some "" →
  user_turn request
  = JObj {[ "role" := JStr "user"; "content" := JStr (text request) ]}.
Proof.
  intros H%truthy_false. unfold user_turn. by rewrite H.
Qed.

Lemma returned_history_reply c h : returned_history (OK (reply c h)) = Some h.
Proof. reflexivity. Qed.

Lemma returned_response_reply c h : returned_response (OK (reply c h)) = Some c.
Proof. reflexivity. Qed.

Lemma assistant_message_of_Some response_json mm :
  assistant_message_of response_json = Some mm →
  ∃ m, response_json = JObj m ∧ default (JObj ∅) (m !! "message") = JObj mm.
Proof.
  destruct response_json as [| | | | |m]; try done. simpl.
  destruct (default (JObj ∅) (m !! "message")) eqn:E; try done.
  intros [= ->]. eauto.
Qed.

(** ** The two ways the handler returns, and the way it does not *)

Lemma respond_success env request m mm :
  backend_outcome env (expected_call request) = Ok (JObj m) →
  default (JObj ∅) (m !! "message") = JObj mm →
  (respond env request).1
  = OK (reply (default (JStr "") (mm !! "content"))
              (history request ++ [user_turn request; JObj mm])).
Proof.
  intros Hout Hmsg. rewrite respond_run. cbv zeta. rewrite Hout, Hmsg.
  cbn [fst]. by rewrite <- app_assoc.
Qed.

Lemma respond_failure env request e :
  backend_outcome env (expected_call request) = Raise e →
  isinstance e RequestException = true →
  (respond env request).1
  = OK (reply (JStr (apology ++ exc_str e))
              (history request ++ [user_turn request])).
Proof.
  intros Hout Hinst. rewrite respond_run. cbv zeta. by rewrite Hout, Hinst.
Qed.

Lemma respond_shape env request :
  (∃ c rest, (respond env request).1
             = OK (reply c (history request ++ user_turn request :: rest)))
  ∨ (∃ e, (respond env request).1 = InternalServerError e).
Proof.
  rewrite respond_run. cbv zeta.
  destruct (backend_outcome env _) as [[| | | | |m]|e];
    [right; by eexists.. | | ].
  - destruct (default (JObj ∅) (m !! "message")) as [| | | | |mm];
      [right; by eexists.. | ].
    left. exists (default (JStr "") (mm !! "content")), [JObj mm].
    cbn [fst]. by rewrite <- app_assoc.
  - destruct (isinstance e RequestException).
    + left. by exists (JStr (apology ++ exc_str e)), [].
    + right. by eexists.
Qed.

Lemma failure_kinds_caught c :
  c ∈ [ConnectionError; Timeout; HTTPError] → issubclass c RequestException = true.
Proof. rewrite !elem_of_cons, elem_of_nil. intros [->|[->|[->|[]]]]; reflexivity. Qed.

Lemma uncaught_classes c :
  c ∈ [AttributeError; ValueError] → issubclass c RequestException = false.
Proof. rewrite !elem_of_cons, elem_of_nil. intros [->|[->|[]]]; reflexivity. Qed.

Lemma forallb_is_dict_false l :
  forallb is_dict l = false ↔ ∃ x, x ∈ l ∧ is_dict x = false.
Proof.
  induction l as [|y l IH]; simpl.
  - split; [done|]. intros (x & Hx & _). by apply elem_of_nil in Hx.
  - rewrite andb_false_iff, IH. split.
    + intros [Hy|(x & Hx & Hd)].
      * exists y. split; [left|done].
      * exists x. split; [by right|done].
    + intros (x & Hx & Hd). apply elem_of_cons in Hx as [->|Hx]; [by left|].
      right. eauto.
Qed.

(** A body validates exactly when it is not malformed. *)
Lemma validate_None_malformed body :
  ChatRequest_validate body = None ↔ malformed body.
Proof.
  split.
  - destruct body as [| | | | |m]; try (intros _; by apply not_an_object).
    unfold ChatRequest_validate.
    destruct (m !! "text") as [t|] eqn:Ht; [|intros _; by apply missing_text].
    destruct t as [| | |t| |]; try (intros _; by eapply text_not_str).
    cbn [mbind option_bind validate_str].
    destruct (validate_optional_str (m !! "image")) as [i|] eqn:Hi.
    + cbn [mbind option_bind].
      destruct (m !! "history") as [hj|] eqn:Hh; [|intros _; by apply missing_history].
      destruct hj as [| | | |l|]; try (intros _; by eapply history_not_list).
      cbn [validate_list_dict mbind option_bind].
      destruct (forallb is_dict l) eqn:Hall; [done|intros _].
      apply forallb_is_dict_false in Hall as (x & Hx & Hd).
      by eapply history_item_not_dict.
    + intros _. destruct (m !! "image") as [j|] eqn:Hj; [|done].
      destruct j; try done; by eapply image_not_str.
  - intros H. destruct H as [body Hd|m Ht|m Hh|m j Ht Hj|m j Hi Hn Hj|m j Hh Hj|m l x Hh Hx Hd].
    + by destruct body.
    + unfold ChatRequest_validate. by rewrite Ht.
    + unfold ChatRequest_validate. rewrite Hh.
      destruct (m !! "text" ≫= validate_str); [|done].
      by destruct (validate_optional_str (m !! "image")).
    + unfold ChatRequest_validate. rewrite Ht.
      destruct j as [| | |t| |]; try done. by destruct (Hj t).
    + unfold ChatRequest_validate. rewrite Hi.
      destruct (m !! "text" ≫= validate_str); [|done].
      destruct j as [| | |img| |]; try done. by destruct (Hj img).
    + unfold ChatRequest_validate. rewrite Hh.
      destruct (m !! "text" ≫= validate_str); [|done].
      destruct (validate_optional_str (m !! "image")); [|done].
      destruct j as [| | | |l|]; try done. by destruct (Hj l).
    + unfold ChatRequest_validate. rewrite Hh.
      destruct (m !! "text" ≫= validate_str); [|done].
      destruct (validate_optional_str (m !! "image")); [|done].
      cbn [validate_list_dict mbind option_bind].
      assert (forallb is_dict l = false) as -> by (apply forallb_is_dict_false; eauto).
      done.
Qed.

(** ** When the handler raises *)

(** A decoded body that is not an object, or whose [message] is not one,
    makes [.get] raise [AttributeError]; the [except] clause does not take
    it and the caller gets a server error. *)
Lemma malformed_reply_raises env request response_json :
  backend_outcome env (expected_call request) = Ok response_json →
  assistant_message_of response_json = None →
  ∃ e, (respond env request).1 = InternalServerError e
       ∧ exc_class e = AttributeError.
Proof.
  intros Hout Hmsg. rewrite respond_run. cbv zeta. rewrite Hout.
  destruct response_json as [| | | | |m]; try by eexists.
  simpl in Hmsg.
  destruct (default (JObj ∅) (m !! "message")); try done; by eexists.
Qed.

(** An exception of the library that is not a [RequestException] is not
    caught either. *)
Lemma foreign_exception_propagates env request e :
  backend_outcome env (expected_call request) = Raise e →
  isinstance e RequestException = false →
  (respond env request).1 = InternalServerError e.
Proof.
  intros Hout Hinst. rewrite respond_run. cbv zeta. by rewrite Hout, Hinst.
Qed.

Example null_message_is_server_error :
  (respond null_message_backend scenario_A).1
  = InternalServerError
      (Exception AttributeError "'NoneType' object has no attribute 'get'").
Proof. reflexivity. Qed.

(** A validated body is handed to the handler as it is. *)
Lemma post_api_chat_valid env body request :
  ChatRequest_validate body = Some request →
  post_api_chat env body = respond env request.
Proof. intros H. unfold post_api_chat. by rewrite H. Qed.

Example scenario_A_validates : ChatRequest_validate scenario_A_body = Some scenario_A.
Proof. reflexivity. Qed.

(** * The relay contract *)

(** C1, as amended.  For a request with an empty history and a
    non-empty text, the returned history has exactly two more entries
    than the input history (the new user turn followed by the new
    assistant turn) when the backend call succeeds with a body that is an
    object whose [message] is an object or is missing, and exactly one
    more entry (the user turn only) when the backend call fails, that is
    when one of the library calls raises a [RequestException]. *)
Theorem chat_history_growth env request :
  history request = [] → text request ≠ "" →
  (∀ m mm,
     backend_outcome env (expected_call request) = Ok (JObj m) →
     m !! "message" = Some (JObj mm) ∨ (m !! "message" = None ∧ mm = ∅) →
     returned_history (respond env request).1
     = Some (history request ++ [user_turn request; JObj mm])
     ∧ (length (history request ++ [user_turn request; JObj mm])
        = length (history request) + 2)%nat)
  ∧ (∀ e,
     backend_outcome env (expected_call request) = Raise e →
     isinstance e RequestException = true →
     returned_history (respond env request).1
     = Some (history request ++ [user_turn request])
     ∧ (length (history request ++ [user_turn request])
        = length (history request) + 1)%nat).
Proof.
  intros _ _. split.
  - intros m mm Hout Hshape.
    assert (default (JObj ∅) (m !! "message") = JObj mm) as Hmsg.
    { destruct Hshape as [-> | [-> ->]]; reflexivity. }
    rewrite (respond_success _ _ _ _ Hout Hmsg), returned_history_reply.
    split; [done|]. by rewrite length_app.
  - intros e Hout Hinst.
    rewrite (respond_failure _ _ _ Hout Hinst), returned_history_reply.
    split; [done|]. by rewrite length_app.
Qed.

Lemma chat_history_growth_witness :
  (returned_history (respond healthy_backend scenario_A).1
   = Some [JObj {[ "role" := JStr "user"; "content" := JStr "hi" ]};
           JObj {[ "role" := JStr "assistant"; "content" := JStr "hello" ]}])
  ∧ (returned_history (respond silent_backend scenario_A).1
     = Some [JObj {[ "role" := JStr "user"; "content" := JStr "hi" ]}; JObj ∅])
  ∧ (returned_history (respond unreachable_backend scenario_A).1
     = Some [JObj {[ "role" := JStr "user"; "content" := JStr "hi" ]}])
  ∧ (returned_history (respond healthy_backend scenario_C).1
     = Some [JObj {[ "role" := JStr "user"; "content" := JStr "describe";
                     "images" := JArr [JStr "AAAA"] ]};
             JObj {[ "role" := JStr "assistant"; "content" := JStr "hello" ]}]).
Proof.
  split; [|split; [|split]].
  - destruct (chat_history_growth healthy_backend scenario_A) as [Hok _];
      [reflexivity | discriminate | ].
    refine (proj1 (Hok {[ "message" := JObj {[ "role" := JStr "assistant";
                                               "content" := JStr "hello" ]} ]}
                       {[ "role" := JStr "assistant"; "content" := JStr "hello" ]}
                       _ _)).
    + reflexivity.
    + left. reflexivity.
  - destruct (chat_history_growth silent_backend scenario_A) as [Hok _];
      [reflexivity | discriminate | ].
    refine (proj1 (Hok {[ "done" := JBool true ]} ∅ _ _)).
    + reflexivity.
    + right. split; reflexivity.
  - destruct (chat_history_growth unreachable_backend scenario_A) as [_ Hko];
      [reflexivity | discriminate | ].
    refine (proj1 (Hko (Exception ConnectionError "Connection refused") _ _));
      reflexivity.
  - destruct (chat_history_growth healthy_backend scenario_C) as [Hok _];
      [reflexivity | discriminate | ].
    refine (proj1 (Hok {[ "message" := JObj {[ "role" := JStr "assistant";
                                               "content" := JStr "hello" ]} ]}
                       {[ "role" := JStr "assistant"; "content" := JStr "hello" ]}
                       _ _)).
    + reflexivity.
    + left. reflexivity.
Defined.

(** C1, as it was worded: it fails when the backend call succeeds with a
    body of another shape.  The request has an empty history and a
    non-empty text, the call is made and answered with status 200 and the
    body [{"message": null}], which decodes; [.get] on [None] then raises
    [AttributeError], which the [except] clause does not take, and no
    history comes back at all. *)
Lemma successful_call_may_return_no_history :
  history scenario_A = [] ∧ text scenario_A ≠ ""
  ∧ sent (respond null_message_backend scenario_A).2 = [expected_call scenario_A]
  ∧ backend_outcome null_message_backend (expected_call scenario_A)
    = Ok (JObj {[ "message" := JNull ]})
  ∧ (respond null_message_backend scenario_A).1
    = InternalServerError
        (Exception AttributeError "'NoneType' object has no attribute 'get'")
  ∧ returned_history (respond null_message_backend scenario_A).1 = None.
Proof. repeat split; first [reflexivity | discriminate]. Qed.




(** C3, as amended.  The model named in the payload sent to the backend
    is the vision model when [image] is present and non-empty, and the
    text model otherwise: when [image] is absent, and also when it is
    present but empty. *)
Theorem model_selection env request :
  let models := payload_field "model" <$> sent (respond env request).2 in
  (∀ img, image request = Some img → img ≠ "" →
          models = [Some (JStr VISION_MODEL_NAME)])
  ∧ (image request = None → models = [Some (JStr TEXT_MODEL_NAME)])
  ∧ (image request = Some "" → models = [Some (JStr TEXT_MODEL_NAME)]).
Proof.
  intros models. subst models. rewrite respond_sent.
  unfold expected_call, payload_field, selected_model. cbn [fmap list_fmap call_json].
  split; [|split].
  - intros img Himg Hne.
    assert (truthy (image request) = true) as -> by (apply truthy_true; eauto).
    reflexivity.
  - intros Himg. by rewrite Himg.
  - intros Himg. by rewrite Himg.
Qed.

Lemma model_selection_witness :
  payload_field "model" <$> sent (respond healthy_backend scenario_C).2
  = [Some (JStr "llava")]
  ∧ payload_field "model" <$> sent (respond healthy_backend scenario_A).2
    = [Some (JStr "llama3:8b")]
  ∧ payload_field "model" <$> sent (respond silent_backend empty_image_request).2
    = [Some (JStr "llama3:8b")].
Proof.
  split; [|split].
  - refine (proj1 (model_selection healthy_backend scenario_C) "AAAA" _ _).
    + reflexivity.
    + discriminate.
  - refine (proj1 (proj2 (model_selection healthy_backend scenario_A)) _).
    reflexivity.
  - refine (proj2 (proj2 (model_selection silent_backend empty_image_request)) _).
    reflexivity.
Defined.

(** C3, the reading in which the switch happens whenever [image] is
    present: it fails for an image that is present but empty.  The guard
    [if request.image:] is false for the empty string, so the text model
    is named and no [images] field is attached. *)
Lemma present_but_empty_image_keeps_text_model :
  is_Some (image empty_image_request)
  ∧ payload_field "model" <$> sent (respond healthy_backend empty_image_request).2
    = [Some (JStr TEXT_MODEL_NAME)]
  ∧ payload_field "model" <$> sent (respond healthy_backend empty_image_request).2
    ≠ [Some (JStr VISION_MODEL_NAME)]
  ∧ field "images" (user_turn empty_image_request) = None.
Proof.
  split; [by eexists|]. split; [reflexivity|]. split; [discriminate|reflexivity].
Qed.

(** C4. Whatever the backend does, the returned history is a strict
    extension of the input history: the input history is its prefix,
    unchanged and in order, and turns have only been appended after it.
    This is so after a failed call, where a history is always returned,
    and after a successful one, where a history is returned whenever the
    body has a [message] object or none; and the handler returns no
    history of any other kind. *)
Theorem history_is_extended env request :
  let r := (respond env request).1 in
  (∀ e, backend_outcome env (expected_call request) = Raise e →
        isinstance e RequestException = true →
        ∃ h', returned_history r = Some h'
              ∧ strict_extension (history request) h')
  ∧ (∀ m mm, backend_outcome env (expected_call request) = Ok (JObj m) →
        m !! "message" = Some (JObj mm) ∨ (m !! "message" = None ∧ mm = ∅) →
        ∃ h', returned_history r = Some h'
              ∧ strict_extension (history request) h')
  ∧ (∀ h', returned_history r = Some h' → strict_extension (history request) h')
  ∧ ((∃ h', returned_history r = Some h') ∨ (∃ e, r = InternalServerError e)).
Proof.
  intros r. subst r.
  assert (∀ rest, strict_extension (history request)
                    (history request ++ user_turn request :: rest)) as Hext.
  { intros rest. split; [by apply prefix_app_r|]. split.
    - by eexists.
    - rewrite length_app, length_cons. lia. }
  split; [|split; [|split]].
  - intros e Hout Hinst.
    rewrite (respond_failure _ _ _ Hout Hinst), returned_history_reply.
    eexists. split; [done|]. apply Hext.
  - intros m mm Hout Hshape.
    assert (default (JObj ∅) (m !! "message") = JObj mm) as Hmsg.
    { destruct Hshape as [-> | [-> ->]]; reflexivity. }
    rewrite (respond_success _ _ _ _ Hout Hmsg), returned_history_reply.
    eexists. split; [done|]. apply Hext.
  - intros h' Hh'.
    destruct (respond_shape env request) as [(c & rest & Hr)|(e & Hr)];
      rewrite Hr in Hh'; [|done].
    rewrite returned_history_reply in Hh'. injection Hh' as <-. apply Hext.
  - destruct (respond_shape env request) as [(c & rest & Hr)|(e & Hr)];
      rewrite Hr; [left|right; by eexists].
    rewrite returned_history_reply. by eexists.
Qed.

Lemma history_is_extended_witness :
  (∃ h', returned_history (respond slow_backend follow_up).1 = Some h'
         ∧ strict_extension (history follow_up) h')
  ∧ (∃ h', returned_history (respond healthy_backend scenario_C).1 = Some h'
           ∧ strict_extension (history scenario_C) h')
  ∧ strict_extension (history follow_up)
      (history follow_up ++ [user_turn follow_up;
                             JObj {[ "role" := JStr "assistant";
                                     "content" := JStr "hello" ]}]).
Proof.
  split; [|split].
  - refine (proj1 (history_is_extended slow_backend follow_up)
              (Exception Timeout "Read timed out. (read timeout=180)") _ _);
      reflexivity.
  - refine (proj1 (proj2 (history_is_extended healthy_backend scenario_C))
              {[ "message" := JObj {[ "role" := JStr "assistant";
                                      "content" := JStr "hello" ]} ]}
              {[ "role" := JStr "assistant"; "content" := JStr "hello" ]} _ _).
    + reflexivity.
    + left. reflexivity.
  - refine (proj1 (proj2 (proj2 (history_is_extended healthy_backend follow_up))) _ _).
    reflexivity.
Defined.

(** C5. When [image] is present and non-empty, exactly one call goes to
    the backend: to the configured URL, with the vision model as [model],
    with the input history followed by the user turn as [messages], where
    the user turn carries the given string as the only element of
    [images], and with [stream] false. *)
Theorem image_payload env request img :
  image request = Some img → img ≠ "" →
  sent (respond env request).2
  = [PostCall OLLAMA_API_URL
       (JObj {[ "model" := JStr VISION_MODEL_NAME;
                "messages" :=
                  JArr (history request ++
                        [JObj {[ "role" := JStr "user";
                                 "content" := JStr (text request);
                                 "images" := JArr [JStr img] ]}]);
                "stream" := JBool false ]})
       180].
Proof.
  intros Himg Hne. rewrite respond_sent. unfold expected_call, selected_model.
  rewrite (user_turn_image _ _ Himg Hne).
  assert (truthy (image request) = true) as -> by (apply truthy_true; eauto).
  reflexivity.
Qed.

Lemma image_payload_witness :
  sent (respond healthy_backend scenario_C).2
  = [PostCall "http://localhost:11434/api/chat"
       (JObj {[ "model" := JStr "llava";
                "messages" := JArr [JObj {[ "role" := JStr "user";
                                           "content" := JStr "describe";
                                           "images" := JArr [JStr "AAAA"] ]}];
                "stream" := JBool false ]})
       180].
Proof.
  refine (image_payload healthy_backend scenario_C "AAAA" _ _).
  - reflexivity.
  - discriminate.
Defined.

(** C6. On a successful backend call the handler takes the [message]
    object of the decoded body, or the empty object when the body has no
    [message]; it appends that object to the history and returns its
    [content], or the empty string when there is no [content], together
    with the whole updated history.  In particular a body with no
    [message] gives a two-entry extension whose second entry is the empty
    object, and the empty string as [response]. *)
Theorem success_decoding env request m :
  backend_answer env request = Some (Ok (JObj m)) →
  let r := (respond env request).1 in
  (∀ mm, m !! "message" = Some (JObj mm) →
     returned_history r = Some (history request ++ [user_turn request; JObj mm])
     ∧ (∀ content, mm !! "content" = Some content →
                   returned_response r = Some content)
     ∧ (mm !! "content" = None → returned_response r = Some (JStr "")))
  ∧ (m !! "message" = None →
     returned_history r = Some (history request ++ [user_turn request; JObj ∅])
     ∧ returned_response r = Some (JStr "")
     ∧ api_status r = 200).
Proof.
  intros Hans r. subst r.
  rewrite backend_answer_eq in Hans. injection Hans as Hout.
  split.
  - intros mm Hm.
    assert (default (JObj ∅) (m !! "message") = JObj mm) as Hmsg by by rewrite Hm.
    rewrite (respond_success _ _ _ _ Hout Hmsg),
      returned_history_reply, returned_response_reply.
    split; [done|]. split.
    + intros content Hc. by rewrite Hc.
    + intros Hc. by rewrite Hc.
  - intros Hm.
    assert (default (JObj ∅) (m !! "message") = JObj ∅) as Hmsg by by rewrite Hm.
    rewrite (respond_success _ _ _ _ Hout Hmsg),
      returned_history_reply, returned_response_reply.
    by rewrite lookup_empty.
Qed.

Lemma success_decoding_witness :
  (returned_history (respond healthy_backend scenario_A).1
   = Some [JObj {[ "role" := JStr "user"; "content" := JStr "hi" ]};
           JObj {[ "role" := JStr "assistant"; "content" := JStr "hello" ]}]
   ∧ returned_response (respond healthy_backend scenario_A).1
     = Some (JStr "hello"))
  ∧ (returned_history (respond silent_backend scenario_A).1
     = Some [JObj {[ "role" := JStr "user"; "content" := JStr "hi" ]}; JObj ∅]
     ∧ returned_response (respond silent_backend scenario_A).1
       = Some (JStr "")).
Proof.
  split.
  - destruct (success_decoding healthy_backend scenario_A
                {[ "message" := JObj {[ "role" := JStr "assistant";
                                        "content" := JStr "hello" ]} ]})
      as [Hmsg _]; [reflexivity|].
    destruct (Hmsg {[ "role" := JStr "assistant"; "content" := JStr "hello" ]})
      as (Hh & Hc & _); [reflexivity|].
    split; [exact Hh|]. apply Hc. reflexivity.
  - destruct (success_decoding silent_backend scenario_A {[ "done" := JBool true ]})
      as [_ Hnone]; [reflexivity|].
    destruct Hnone as (Hh & Hc & _); [reflexivity|].
    split; [exact Hh | exact Hc].
Defined.

(** C7. Scenario A: the request [{text: "hi", history: []}], with a
    healthy backend answering
    [{"message": {"role": "assistant", "content": "hello"}}], gets the
    response
    [{"response": "hello", "history": [{"role": "user", "content": "hi"},
    {"role": "assistant", "content": "hello"}]}]. *)
Theorem scenario_A_response :
  (post_api_chat healthy_backend scenario_A_body).1
  = OK (JObj {[ "response" := JStr "hello";
                "history" :=
                  JArr [JObj {[ "role" := JStr "user"; "content" := JStr "hi" ]};
                        JObj {[ "role" := JStr "assistant";
                                "content" := JStr "hello" ]}] ]})
  ∧ api_status (post_api_chat healthy_backend scenario_A_body).1 = 200.
Proof. split; reflexivity. Qed.

(** C8. GET / with no [index.html] gives an HTML response with status 200
    whose content holds the notice that the file was not found; with
    [index.html] present as a file, the response serves that file. *)
Theorem root_page fs :
  (fs !! "index.html" = None →
     get_root fs = HTMLResponse "<h1>Fichier index.html non trouvé.</h1>"
     ∧ web_status (get_root fs) = 200
     ∧ ∃ page, web_body fs (get_root fs) = Some page
               ∧ contains "index.html non trouvé" page = true)
  ∧ (∀ content, fs !! "index.html" = Some (RegularFile content) →
     get_root fs = FileResponse "index.html"
     ∧ web_status (get_root fs) = 200
     ∧ web_body fs (get_root fs) = Some content).
Proof.
  unfold get_root, os_path_exists. split.
  - intros Hfs. rewrite bool_decide_eq_false_2 by (rewrite Hfs; by intros [? ?]).
    split; [done|]. split; [done|]. by eexists.
  - intros content Hfs. rewrite bool_decide_eq_true_2 by (rewrite Hfs; by eexists).
    split; [done|]. split; [done|]. simpl. by rewrite Hfs.
Qed.

Lemma root_page_witness :
  get_root ∅ = HTMLResponse "<h1>Fichier index.html non trouvé.</h1>"
  ∧ web_body {[ "index.html" := RegularFile "<h1>Axiom</h1>" ]}
             (get_root {[ "index.html" := RegularFile "<h1>Axiom</h1>" ]})
    = Some "<h1>Axiom</h1>".
Proof.
  split.
  - refine (proj1 (proj1 (root_page ∅) _)). reflexivity.
  - refine (proj2 (proj2 (proj2 (root_page {[ "index.html" := RegularFile "<h1>Axiom</h1>" ]})
                                   "<h1>Axiom</h1>" _))).
    reflexivity.
Defined.

(** C9. A body that lacks [text] or [history], or in which a field has
    the wrong type, is answered with status 422 by validation: the handler
    does not run, nothing is printed and no call goes to the backend.  So
    a status 200 is only ever given to a well-formed body. *)
Theorem invalid_body_rejected env body :
  (malformed body →
     api_status (post_api_chat env body).1 = 422
     ∧ (post_api_chat env body).1 = UnprocessableEntity
     ∧ sent (post_api_chat env body).2 = []
     ∧ stdout (post_api_chat env body).2 = [])
  ∧ (api_status (post_api_chat env body).1 = 200 → ¬ malformed body).
Proof.
  split.
  - intros Hbad%validate_None_malformed. unfold post_api_chat. by rewrite Hbad.
  - intros Hok Hbad%validate_None_malformed. unfold post_api_chat in Hok.
    by rewrite Hbad in Hok.
Qed.

Lemma invalid_body_rejected_witness :
  (post_api_chat healthy_backend (JObj {[ "history" := JArr [] ]})).1
  = UnprocessableEntity
  ∧ sent (post_api_chat healthy_backend
            (JObj {[ "text" := JNum 5; "history" := JArr [] ]})).2 = []
  ∧ ¬ malformed scenario_A_body.
Proof.
  split; [|split].
  - refine (proj1 (proj2 (proj1 (invalid_body_rejected healthy_backend
                                   (JObj {[ "history" := JArr [] ]})) _))).
    apply missing_text. reflexivity.
  - refine (proj1 (proj2 (proj2 (proj1 (invalid_body_rejected healthy_backend
              (JObj {[ "text" := JNum 5; "history" := JArr [] ]})) _)))).
    apply (text_not_str _ (JNum 5)); [reflexivity | discriminate].
  - refine (proj2 (invalid_body_rejected healthy_backend scenario_A_body) _).
    reflexivity.
Defined.

(** C10. When [image] is present and non-empty, the user turn in the
    returned history still carries it: its [images] field is the list of
    that one string, both when the backend call succeeds and when it
    fails. *)
Theorem image_echoed env request img :
  image request = Some img → img ≠ "" →
  let turn := JObj {[ "role" := JStr "user";
                      "content" := JStr (text request);
                      "images" := JArr [JStr img] ]} in
  let r := (respond env request).1 in
  field "images" turn = Some (JArr [JStr img])
  ∧ (∀ response_json mm,
       backend_answer env request = Some (Ok response_json) →
       assistant_message_of response_json = Some mm →
       returned_history r = Some (history request ++ [turn; JObj mm]))
  ∧ (∀ e,
       backend_answer env request = Some (Raise e) →
       isinstance e RequestException = true →
       returned_history r = Some (history request ++ [turn])).
Proof.
  intros Himg Hne turn r. subst turn r.
  rewrite <- (user_turn_image _ _ Himg Hne).
  split; [|split].
  - by rewrite (user_turn_image _ _ Himg Hne).
  - intros response_json mm Hans Hmsg.
    rewrite backend_answer_eq in Hans. injection Hans as Hout.
    apply assistant_message_of_Some in Hmsg as (m & -> & Hmsg).
    by rewrite (respond_success _ _ _ _ Hout Hmsg).
  - intros e Hans Hinst.
    rewrite backend_answer_eq in Hans. injection Hans as Hout.
    by rewrite (respond_failure _ _ _ Hout Hinst).
Qed.

Lemma image_echoed_witness :
  returned_history (respond healthy_backend scenario_C).1
  = Some [JObj {[ "role" := JStr "user"; "content" := JStr "describe";
                  "images" := JArr [JStr "AAAA"] ]};
          JObj {[ "role" := JStr "assistant"; "content" := JStr "hello" ]}]
  ∧ returned_history (respond unreachable_backend scenario_C).1
    = Some [JObj {[ "role" := JStr "user"; "content" := JStr "describe";
                    "images" := JArr [JStr "AAAA"] ]}].
Proof.
  split.
  - refine (proj1 (proj2 (image_echoed healthy_backend scenario_C "AAAA" _ _))
              (JObj {[ "message" := JObj {[ "role" := JStr "assistant";
                                            "content" := JStr "hello" ]} ]})
              {[ "role" := JStr "assistant"; "content" := JStr "hello" ]} _ _);
      first [reflexivity | discriminate].
  - refine (proj2 (proj2 (image_echoed unreachable_backend scenario_C "AAAA" _ _))
              (Exception ConnectionError "Connection refused") _ _);
      first [reflexivity | discriminate].
Defined.

(** * Further properties of the code *)

(** ** The call to the backend *)

(** X1. Every request that reaches the handler makes exactly one call to
    the backend, whatever the backend does (there is no retry): to the
    configured URL, with a timeout of 180 seconds, and with a JSON object
    of exactly the three keys [model], [messages] and [stream], where
    [stream] is false and [messages] is the input history followed by the
    user turn. *)
Theorem one_call_per_request env request :
  ∃ call m,
    sent (respond env request).2 = [call]
    ∧ call_url call = OLLAMA_API_URL
    ∧ call_timeout call = 180
    ∧ call_json call = JObj m
    ∧ dom m = ({[ "model"; "messages"; "stream" ]} : gset string)
    ∧ m !! "stream" = Some (JBool false)
    ∧ m !! "messages" = Some (JArr (history request ++ [user_turn request]))
    ∧ (m !! "model" = Some (JStr TEXT_MODEL_NAME)
       ∨ m !! "model" = Some (JStr VISION_MODEL_NAME)).
Proof.
  rewrite respond_sent. unfold expected_call.
  eexists _, _. split; [reflexivity|]. do 3 (split; [reflexivity|]).
  split; [by rewrite !dom_insert_L, dom_singleton_L|].
  do 2 (split; [reflexivity|]).
  unfold selected_model. destruct (truthy (image request)); [by right|by left].
Qed.

(** X2. An image that is present but empty is the same as no image at
    all: the bodies with ["image": ""], with ["image": null] and without
    the key get the same response, make the same call and print the same
    lines. *)
Theorem empty_image_is_no_image env (m : gmap string json) :
  post_api_chat env (JObj (<["image" := JStr ""]> m))
  = post_api_chat env (JObj (delete "image" m))
  ∧ post_api_chat env (JObj (<["image" := JNull]> m))
    = post_api_chat env (JObj (delete "image" m)).
Proof.
  unfold post_api_chat, ChatRequest_validate.
  rewrite !lookup_insert_eq, lookup_delete_eq.
  rewrite !(lookup_insert_ne _ "image" "text"), !(lookup_insert_ne _ "image" "history"),
    !(lookup_delete_ne _ "image" "text"), !(lookup_delete_ne _ "image" "history") by done.
  destruct (m !! "text" ≫= validate_str) as [t|]; [|done].
  destruct (m !! "history" ≫= validate_list_dict) as [h|]; [|done].
  cbn [validate_optional_str mbind option_bind].
  split; [|done].
  by rewrite !respond_run.
Qed.

(** ** When the handler itself raises *)

Lemma respond_of_run env request :
  (respond env request).1
  = match (chat_with_axiom env request (initial_state request)).1 with
    | Ok d => OK (dumps (chat_with_axiom env request (initial_state request)).2 d)
    | Raise e => InternalServerError e
    end.
Proof.
  unfold respond.
  by destruct (chat_with_axiom env request (initial_state request)) as [[d|e] σ].
Qed.

(** X3. The handler itself raises in two cases and no other: when a
    library call raised an exception that is not a [RequestException],
    which it lets through unchanged, and when the decoded body is not an
    object whose [message], if any, is an object, where [.get] raises an
    [AttributeError].  In every other case, a caught failure or a body of
    that shape, it returns its dict. *)
Theorem handler_raises_exactly_when env request :
  let run := (chat_with_axiom env request (initial_state request)).1 in
  (∀ e, backend_outcome env (expected_call request) = Raise e →
        isinstance e RequestException = false → run = Raise e)
  ∧ (∀ e, backend_outcome env (expected_call request) = Raise e →
          isinstance e RequestException = true → ∃ d, run = Ok d)
  ∧ (∀ response_json,
        backend_outcome env (expected_call request) = Ok response_json →
        assistant_message_of response_json = None →
        ∃ detail, run = Raise (Exception AttributeError detail))
  ∧ (∀ response_json mm,
        backend_outcome env (expected_call request) = Ok response_json →
        assistant_message_of response_json = Some mm → ∃ d, run = Ok d).
Proof.
  intros run. subst run.
  pose proof (respond_of_run env request) as Hrun.
  destruct (chat_with_axiom env request (initial_state request)) as [[d|e0] σ];
    cbn [fst snd] in *.
  - split; [|split; [|split]].
    + intros e Hout Hinst.
      by rewrite (foreign_exception_propagates _ _ _ Hout Hinst) in Hrun.
    + intros. by eexists.
    + intros j Hout Hshape.
      destruct (malformed_reply_raises _ _ _ Hout Hshape) as (e & Hr & _).
      by rewrite Hr in Hrun.
    + intros. by eexists.
  - split; [|split; [|split]].
    + intros e Hout Hinst.
      rewrite (foreign_exception_propagates _ _ _ Hout Hinst) in Hrun.
      by injection Hrun as ->.
    + intros e Hout Hinst. by rewrite (respond_failure _ _ _ Hout Hinst) in Hrun.
    + intros j Hout Hshape.
      destruct (malformed_reply_raises _ _ _ Hout Hshape) as ([c detail] & Hr & Hc).
      simpl in Hc. subst c. rewrite Hr in Hrun. injection Hrun as <-. by eexists.
    + intros j mm Hout Hshape.
      destruct (assistant_message_of_Some _ _ Hshape) as (m & -> & Hmsg).
      by rewrite (respond_success _ _ _ _ Hout Hmsg) in Hrun.
Qed.

Lemma handler_raises_exactly_when_witness :
  (chat_with_axiom garbled_backend scenario_A (initial_state scenario_A)).1
  = Raise (Exception ValueError "Expecting value")
  ∧ (∃ d, (chat_with_axiom unreachable_backend scenario_A
             (initial_state scenario_A)).1 = Ok d)
  ∧ (∃ detail, (chat_with_axiom null_message_backend scenario_A
                  (initial_state scenario_A)).1
               = Raise (Exception AttributeError detail))
  ∧ (∃ d, (chat_with_axiom healthy_backend scenario_C
             (initial_state scenario_C)).1 = Ok d).
Proof.
  split; [|split; [|split]].
  - refine (proj1 (handler_raises_exactly_when garbled_backend scenario_A)
              (Exception ValueError "Expecting value") _ _); reflexivity.
  - refine (proj1 (proj2 (handler_raises_exactly_when unreachable_backend scenario_A))
              (Exception ConnectionError "Connection refused") _ _); reflexivity.
  - refine (proj1 (proj2 (proj2 (handler_raises_exactly_when null_message_backend
                                   scenario_A)))
              (JObj {[ "message" := JNull ]}) _ _); reflexivity.
  - refine (proj2 (proj2 (proj2 (handler_raises_exactly_when healthy_backend scenario_C)))
              (JObj {[ "message" := JObj {[ "role" := JStr "assistant";
                                            "content" := JStr "hello" ]} ]})
              {[ "role" := JStr "assistant"; "content" := JStr "hello" ]} _ _);
      reflexivity.
Defined.

(** ** Histories that come back can be sent again *)

(** X4. When every entry of the input history is an object, so is every
    entry of a returned history; a returned history therefore validates
    as the [history] of the next request. *)
Theorem returned_history_validates env request h' :
  forallb is_dict (history request) = true →
  returned_history (respond env request).1 = Some h' →
  forallb is_dict h' = true
  ∧ ∀ t, ChatRequest_validate (JObj {[ "text" := JStr t; "history" := JArr h' ]})
         = Some {| text := t; image := None; history := h' |}.
Proof.
  intros Hin Hh'.
  assert (forallb is_dict h' = true) as Hall.
  { destruct (backend_outcome env (expected_call request)) as [j|e] eqn:Hout.
    - destruct (assistant_message_of j) as [mm|] eqn:Hshape.
      + destruct (assistant_message_of_Some _ _ Hshape) as (m & -> & Hmsg).
        rewrite (respond_success _ _ _ _ Hout Hmsg), returned_history_reply in Hh'.
        injection Hh' as <-. by rewrite forallb_app, Hin.
      + destruct (malformed_reply_raises _ _ _ Hout Hshape) as (e & Hr & _).
        by rewrite Hr in Hh'.
    - destruct (isinstance e RequestException) eqn:Hinst.
      + rewrite (respond_failure _ _ _ Hout Hinst), returned_history_reply in Hh'.
        injection Hh' as <-. by rewrite forallb_app, Hin.
      + by rewrite (foreign_exception_propagates _ _ _ Hout Hinst) in Hh'. }
  split; [done|]. intros t.
  unfold ChatRequest_validate.
  rewrite lookup_insert_eq. cbn [mbind option_bind validate_str].
  assert (({[ "text" := JStr t; "history" := JArr h' ]} : gmap string json) !! "image"
          = None) as -> by done.
  assert (({[ "text" := JStr t; "history" := JArr h' ]} : gmap string json) !! "history"
          = Some (JArr h')) as -> by done.
  cbn [validate_optional_str validate_list_dict mbind option_bind].
  by rewrite Hall.
Qed.

Lemma returned_history_validates_witness :
  forallb is_dict
    [JObj {[ "role" := JStr "user"; "content" := JStr "hi" ]};
     JObj {[ "role" := JStr "assistant"; "content" := JStr "hello" ]}] = true.
Proof.
  refine (proj1 (returned_history_validates healthy_backend scenario_A _ _ _)).
  - reflexivity.
  - reflexivity.
Defined.

(** X5. Two exchanges in a row: when the history returned for one request
    is sent as the history of the next, the second returned history still
    begins with the first input history, holds the first user turn right
    after it and the second user turn right after the first returned
    history, and has at least two entries more than the first input. *)
Theorem conversation_accumulates env1 env2 request1 request2 h1 h2 :
  returned_history (respond env1 request1).1 = Some h1 →
  history request2 = h1 →
  returned_history (respond env2 request2).1 = Some h2 →
  history request1 `prefix_of` h2
  ∧ h1 `prefix_of` h2
  ∧ h2 !! length (history request1) = Some (user_turn request1)
  ∧ h2 !! length h1 = Some (user_turn request2)
  ∧ (length (history request1) + 2 ≤ length h2)%nat.
Proof.
  intros H1 Hnext H2.
  destruct (respond_shape env1 request1) as [(c1 & rest1 & Hr1)|(e & Hr1)];
    rewrite Hr1 in H1; [|done].
  destruct (respond_shape env2 request2) as [(c2 & rest2 & Hr2)|(e & Hr2)];
    rewrite Hr2 in H2; [|done].
  rewrite returned_history_reply in H1, H2.
  injection H1 as <-. injection H2 as <-. rewrite Hnext.
  split; [rewrite <- app_assoc; by apply prefix_app_r|].
  split; [by apply prefix_app_r|].
  split; [|split].
  - rewrite <- app_assoc. by apply list_lookup_middle.
  - by apply list_lookup_middle.
  - rewrite !length_app, !length_cons. lia.
Qed.

Lemma conversation_accumulates_witness :
  history scenario_A `prefix_of`
    history follow_up ++ [user_turn follow_up;
                          JObj {[ "role" := JStr "assistant";
                                  "content" := JStr "hello" ]}].
Proof.
  refine (proj1 (conversation_accumulates healthy_backend healthy_backend
                   scenario_A follow_up (history follow_up) _ _ _ _));
    reflexivity.
Defined.

(** ** What the backend saw, and what the list holds in the end *)

(** X6. The payload is serialised before the reply is appended: when a
    history is returned, the [messages] the backend received are that
    history without the assistant turn (all of it after a failure), and
    the returned history is the final content of the list object the
    request came with, which the handler has changed in place. *)
Theorem backend_sees_history_without_reply env request h' :
  returned_history (respond env request).1 = Some h' →
  conversation_history (respond env request).2 = h'
  ∧ ∃ seen,
      payload_field "messages" <$> sent (respond env request).2 = [Some (JArr seen)]
      ∧ seen = history request ++ [user_turn request]
      ∧ match backend_answer env request with
        | Some (Raise _) => h' = seen
        | Some (Ok response_json) =>
            ∃ mm, assistant_message_of response_json = Some mm
                  ∧ h' = seen ++ [JObj mm]
        | None => False
        end.
Proof.
  rewrite backend_answer_eq, respond_sent, respond_run. cbv zeta.
  destruct (backend_outcome env (expected_call request)) as [[| | | | |m]|e];
    try done.
  - cbn [assistant_message_of].
    destruct (default (JObj ∅) (m !! "message")) as [| | | | |mm]; try done.
    cbn [fst snd conversation_history]. rewrite returned_history_reply.
    intros [= <-]. split; [done|]. eexists. split; [reflexivity|].
    split; [done|]. by exists mm.
  - destruct (isinstance e RequestException); [|done].
    cbn [fst snd conversation_history]. rewrite returned_history_reply.
    intros [= <-]. split; [done|]. eexists. split; [reflexivity|]. done.
Qed.

Lemma backend_sees_history_without_reply_witness :
  conversation_history (respond healthy_backend follow_up).2
  = history follow_up ++ [user_turn follow_up;
                          JObj {[ "role" := JStr "assistant";
                                  "content" := JStr "hello" ]}].
Proof.
  refine (proj1 (backend_sees_history_without_reply healthy_backend follow_up _ _)).
  reflexivity.
Defined.

(** ** What is printed *)

(** X7. Every request that reaches the handler prints the line that names
    the model it sends to; the notice about the image comes before it
    exactly when a non-empty image is attached, and the line with the
    error text comes after it exactly when the failure is caught.  Nothing
    else is printed, in particular nothing of the text, the image or the
    reply. *)
Theorem printed_lines env request :
  stdout (respond env request).2
  = (if truthy (image request)
     then ["🖼️ Image détectée, utilisation du modèle de vision LLaVA."%string]
     else [])
    ++ [("🤖 Envoi de la requête à Ollama avec le modèle "
         ++ (if truthy (image request) then VISION_MODEL_NAME else TEXT_MODEL_NAME)
         ++ "...")%string]
    ++ match backend_answer env request with
       | Some (Raise e) =>
           if isinstance e RequestException
           then [("❌ Erreur de communication avec Ollama: " ++ exc_str e)%string]
           else []
       | _ => []
       end.
Proof.
  rewrite backend_answer_eq, respond_run. cbv zeta. unfold selected_model.
  destruct (backend_outcome env (expected_call request)) as [[| | | | |m]|e];
    try by rewrite app_nil_r.
  - destruct (default (JObj ∅) (m !! "message")); by rewrite app_nil_r.
  - destruct (isinstance e RequestException);
      cbn [snd stdout]; by rewrite <- ?app_assoc, ?app_nil_r.
Qed.

(** ** Which library call failed *)

(** X8. Each of the three library calls of the [try] block is covered by
    the [except] clause.  A [RequestException] from [requests.post], from
    [raise_for_status] or from [response.json] gives the same apology; an
    error status is reported even when the body would have been a valid
    reply, which is then never decoded; and an exception of another class
    from [response.json] is not caught. *)
Theorem any_library_call_may_fail env request :
  let r := (respond env request).1 in
  let sorry e := OK (reply (JStr (apology ++ exc_str e))
                           (history request ++ [user_turn request])) in
  (∀ e, env (expected_call request) = Raise e →
        isinstance e RequestException = true → r = sorry e)
  ∧ (∀ response e,
        env (expected_call request) = Ok response →
        raise_for_status response = Raise e →
        isinstance e RequestException = true → r = sorry e)
  ∧ (∀ response e,
        env (expected_call request) = Ok response →
        raise_for_status response = Ok () →
        json_method response = Raise e →
        r = if isinstance e RequestException then sorry e
            else InternalServerError e).
Proof.
  intros r sorry. subst r sorry. cbv beta. split; [|split].
  - intros e Henv Hinst. apply respond_failure; [|done].
    unfold backend_outcome. by rewrite Henv.
  - intros response e Henv Hstatus Hinst. apply respond_failure; [|done].
    unfold backend_outcome. by rewrite Henv, Hstatus.
  - intros response e Henv Hstatus Hjson.
    assert (backend_outcome env (expected_call request) = Raise e) as Hout.
    { unfold backend_outcome. by rewrite Henv, Hstatus. }
    destruct (isinstance e RequestException) eqn:Hinst.
    + by apply respond_failure.
    + by apply foreign_exception_propagates.
Qed.

Lemma any_library_call_may_fail_witness :
  (respond unreachable_backend scenario_A).1
  = OK (reply (JStr (apology ++ "Connection refused"))
              (history scenario_A ++ [user_turn scenario_A]))
  ∧ (respond not_found_backend scenario_A).1
    = OK (reply (JStr (apology ++ "404 Client Error: Not Found for url: http://localhost:11434/api/chat"))
                (history scenario_A ++ [user_turn scenario_A]))
  ∧ (respond garbled_backend scenario_A).1
    = InternalServerError (Exception ValueError "Expecting value").
Proof.
  split; [|split].
  - refine (proj1 (any_library_call_may_fail unreachable_backend scenario_A)
              (Exception ConnectionError "Connection refused") _ _); reflexivity.
  - refine (proj1 (proj2 (any_library_call_may_fail not_found_backend scenario_A))
              not_found (Exception HTTPError (http_error_msg not_found)) _ _ _);
      reflexivity.
  - refine (proj2 (proj2 (any_library_call_may_fail garbled_backend scenario_A))
              garbled (Exception ValueError "Expecting value") _ _ _); reflexivity.
Defined.

(** ** Validation of the request body *)

Lemma validate_Some_inv m request :
  ChatRequest_validate (JObj m) = Some request →
  m !! "text" = Some (JStr (text request))
  ∧ m !! "history" = Some (JArr (history request))
  ∧ forallb is_dict (history request) = true
  ∧ match image request with
    | Some img => m !! "image" = Some (JStr img)
    | None => m !! "image" = None ∨ m !! "image" = Some JNull
    end.
Proof.
  unfold ChatRequest_validate.
  destruct (m !! "text") as [[| | |t| |]|]; try done.
  cbn [mbind option_bind validate_str].
  destruct (m !! "history") as [[| | | |l|]|];
    try (by destruct (validate_optional_str (m !! "image"))).
  destruct (m !! "image") as [[| | |img| |]|]; try done;
    cbn [validate_optional_str validate_list_dict mbind option_bind];
    destruct (forallb is_dict l) eqn:Hall; try done;
    intros [= <-]; cbn [text image history]; eauto 10.
Qed.

(** X11. Whatever the body, a call that goes to the backend carries as
    [messages] a non-empty array of objects whose last entry is the turn
    with role [user] and the caller's text as content. *)
Theorem only_objects_are_sent env body call :
  call ∈ sent (post_api_chat env body).2 →
  ∃ msgs turn,
    payload_field "messages" call = Some (JArr msgs)
    ∧ forallb is_dict msgs = true
    ∧ last msgs = Some (JObj turn)
    ∧ turn !! "role" = Some (JStr "user")
    ∧ ∃ t, field "text" body = Some (JStr t) ∧ turn !! "content" = Some (JStr t).
Proof.
  unfold post_api_chat.
  destruct (ChatRequest_validate body) as [request|] eqn:Hv; cbn [snd sent].
  - destruct body as [| | | | |m]; try done.
    apply validate_Some_inv in Hv as (Ht & _ & Hall & _).
    rewrite respond_sent. intros ->%list_elem_of_singleton.
    unfold user_turn in *.
    eexists _, _. split; [reflexivity|].
    split; [by rewrite forallb_app, Hall|].
    split; [by rewrite last_snoc|].
    split; [by destruct (truthy (image request))|].
    exists (text request). split; [done|]. by destruct (truthy (image request)).
  - by intros ?%elem_of_nil.
Qed.

Lemma only_objects_are_sent_witness :
  ∃ msgs turn,
    payload_field "messages" (expected_call scenario_A) = Some (JArr msgs)
    ∧ forallb is_dict msgs = true
    ∧ last msgs = Some (JObj turn)
    ∧ turn !! "role" = Some (JStr "user")
    ∧ ∃ t, field "text" scenario_A_body = Some (JStr t)
           ∧ turn !! "content" = Some (JStr t).
Proof.
  apply (only_objects_are_sent healthy_backend scenario_A_body).
  apply list_elem_of_here.
Defined.

(** ** Reading a failure back *)

Lemma prefix_append (p s : string) : String.prefix p (p ++ s) = true.
Proof.
  induction p as [|c p IH]; simpl.
  - by destruct s.
  - destruct (Ascii.ascii_dec c c) as [_|Hne]; [exact IH | by destruct Hne].
Qed.

Lemma substring_all (s : string) : String.substring 0 (String.length s) s = s.
Proof. induction s as [|c s IH]; simpl; [done | by rewrite IH]. Qed.

Lemma substring_after (p s : string) :
  String.substring (String.length p) (String.length s) (p ++ s) = s.
Proof. induction p as [|c p IH]; simpl; [apply substring_all | exact IH]. Qed.

(** X14. After a caught failure the [response] field is a string that
    begins with the fixed apology, and what follows the apology is the
    text of the error, unchanged: dropping the apology gives it back. *)
Theorem failure_detail_can_be_read_back env request e :
  backend_answer env request = Some (Raise e) →
  isinstance e RequestException = true →
  ∃ s, returned_response (respond env request).1 = Some (JStr s)
       ∧ String.prefix apology s = true
       ∧ String.substring (String.length apology) (String.length (exc_str e)) s = exc_str e
       ∧ String.length s = (String.length apology + String.length (exc_str e))%nat.
Proof.
  intros Hans Hinst.
  rewrite backend_answer_eq in Hans. injection Hans as Hout.
  rewrite (respond_failure _ _ _ Hout Hinst), returned_response_reply.
  eexists. split; [done|]. split; [apply prefix_append|].
  split; [apply substring_after|].
  generalize (exc_str e). generalize apology.
  intros p s. induction p as [|c p IH]; simpl; [done | by rewrite IH].
Qed.

Lemma failure_detail_can_be_read_back_witness :
  ∃ s, returned_response (respond slow_backend follow_up).1 = Some (JStr s)
       ∧ String.prefix apology s = true
       ∧ String.substring (String.length apology)
           (String.length "Read timed out. (read timeout=180)") s
         = "Read timed out. (read timeout=180)"
       ∧ String.length s
         = (String.length apology
            + String.length "Read timed out. (read timeout=180)")%nat.
Proof.
  apply (failure_detail_can_be_read_back slow_backend follow_up
           (Exception Timeout "Read timed out. (read timeout=180)")); reflexivity.
Defined.
